(** * LLFSM runtime of swift-fsmlib: the generated CounterC machine

    A shallow embedding of the generated C sources of [CounterC.machine]
    ([Machine_CounterC.h], [Machine_CounterC.c], [State_CountUp.c],
    [State_Initial.c] and the state headers), of the structural facts of the
    generated C++ [Counter.machine] headers, and of the execution engine
    (step / suspend / resume) that drives such machines. *)

From Stdlib Require Import ZArith List Bool Lia.
Import ListNotations.

(** ** Pointers, function pointers and the common state layout *)

Module LLFSM.

(** A [struct LLFSMState *]: an address, or [NULL]. *)
Definition addr := nat.
Definition ptr := option addr.
Definition NULL : ptr := None.

Definition ptr_eqb (p q : ptr) : bool :=
  match p, q with
  | Some a, Some b => Nat.eqb a b
  | None, None => true
  | _, _ => false
  end.

(** The truth value of a pointer used as a C condition. *)
Definition is_nonnull (p : ptr) : bool := negb (ptr_eqb p NULL).

(** [uintptr_t], taken at 64 bits (LP64); the proofs below only use that
    the modulus is positive. *)
Definition UINTPTR_WIDTH : Z := 64.
Definition UINTPTR_MAX : Z := 2 ^ UINTPTR_WIDTH - 1.
Definition uintptr_wrap (z : Z) : Z := z mod 2 ^ UINTPTR_WIDTH.

(** The five states of the machine, by the name used in the generated
    identifiers ([fsm_counterc_<state>_...]). *)
Inductive StateName :=
| Initial | InitialPseudoState | CountUp | Print | SUSPENDED.

(** The six entries of a state's dispatch table. *)
Inductive Slot :=
| CheckTransitions | OnEntry | OnExit | Internal | OnSuspend | OnResume.

(** A code address: [fn s k] is the address of the generated function
    [fsm_counterc_<s>_<k>]; [fn_null] is a null function pointer. *)
Inductive fnptr :=
| fn_null
| fn (s : StateName) (k : Slot).

Definition StateName_eqb (a b : StateName) : bool :=
  match a, b with
  | Initial, Initial | InitialPseudoState, InitialPseudoState
  | CountUp, CountUp | Print, Print | SUSPENDED, SUSPENDED => true
  | _, _ => false
  end.

Definition Slot_eqb (a b : Slot) : bool :=
  match a, b with
  | CheckTransitions, CheckTransitions | OnEntry, OnEntry
  | OnExit, OnExit | Internal, Internal
  | OnSuspend, OnSuspend | OnResume, OnResume => true
  | _, _ => false
  end.

(** [==] on function pointers. *)
Definition fnptr_eqb (f g : fnptr) : bool :=
  match f, g with
  | fn_null, fn_null => true
  | fn s k, fn s' k' => StateName_eqb s s' && Slot_eqb k k'
  | _, _ => false
  end.

(** [struct LLFSMState]: the layout shared by [FSMCounterC_State_CountUp],
    [FSMCounterC_State_Initial] and the other generated state structs. *)
Record LLFSMState := mkState {
  check_transitions : fnptr;
  on_entry : fnptr;
  on_exit : fnptr;
  internal : fnptr;
  on_suspend : fnptr;
  on_resume : fnptr
}.

(** The dispatch table of state [s] with every entry bound to the function
    generated for [s]: what the generated [fsm_counterc_<s>_init] installs. *)
Definition registered (s : StateName) : LLFSMState :=
  mkState (fn s CheckTransitions) (fn s OnEntry) (fn s OnExit)
          (fn s Internal) (fn s OnSuspend) (fn s OnResume).

(** The state structs live in memory; a state pointer is an index in it. *)
Definition Memory := list LLFSMState.

End LLFSM.

Import LLFSM.

(** ** CounterC.machine (generated C) *)

Module CounterC.

Definition MACHINE_COUNTERC_NUMBER_OF_STATES : nat := 5.
Definition MACHINE_COUNTERC_IS_SUSPENSIBLE : bool := true.

Section Machine.

(** The machine's variable block ([Machine_CounterC_Variables.h]). *)
Context {V : Type}.

(** [struct Machine_CounterC]: the five engine fields, the state table and
    the included variable block. *)
Record Machine_CounterC := mkMachine {
  current_state : ptr;
  previous_state : ptr;
  state_time : Z;
  suspend_state : ptr;
  resume_state : ptr;
  states : list ptr;
  variables : V
}.

(** [machine->states[i]].  The array has
    [MACHINE_COUNTERC_NUMBER_OF_STATES] entries and the generated code only
    uses constant indices below that; an entry a shorter list lacks reads as
    [NULL]. *)
Definition states_at (m : Machine_CounterC) (i : nat) : ptr :=
  nth i (states m) NULL.

Definition set_current_state (p : ptr) (m : Machine_CounterC) :=
  mkMachine p (previous_state m) (state_time m) (suspend_state m)
            (resume_state m) (states m) (variables m).
Definition set_previous_state (p : ptr) (m : Machine_CounterC) :=
  mkMachine (current_state m) p (state_time m) (suspend_state m)
            (resume_state m) (states m) (variables m).
Definition set_state_time (t : Z) (m : Machine_CounterC) :=
  mkMachine (current_state m) (previous_state m) t (suspend_state m)
            (resume_state m) (states m) (variables m).
Definition set_suspend_state (p : ptr) (m : Machine_CounterC) :=
  mkMachine (current_state m) (previous_state m) (state_time m) p
            (resume_state m) (states m) (variables m).
Definition set_resume_state (p : ptr) (m : Machine_CounterC) :=
  mkMachine (current_state m) (previous_state m) (state_time m)
            (suspend_state m) p (states m) (variables m).
Definition set_variables (v : V) (m : Machine_CounterC) :=
  mkMachine (current_state m) (previous_state m) (state_time m)
            (suspend_state m) (resume_state m) (states m) v.

(** [fsm_counterc_init], Machine_CounterC.c. *)
Definition fsm_counterc_init (machine : Machine_CounterC) : Machine_CounterC :=
  let machine := set_current_state (states_at machine 0) machine in
  let machine := set_previous_state NULL machine in
  let machine := set_state_time 0%Z machine in
  let machine := set_suspend_state (states_at machine 4) machine in
  set_resume_state NULL machine.

(** [fsm_counterc_validate], Machine_CounterC.c:
    [return machine->current_state != NULL && true; // FIXME: check states] *)
Definition fsm_counterc_validate (machine : Machine_CounterC) : bool :=
  is_nonnull (current_state machine) && true.

(** The [RESTART(m)] macro, Machine_CounterC.h:
    [(((m)->previous_state = (m)->current_state) &&
      ((m)->current_state = (m)->states[0]))].
    An assignment has the value assigned, and [&&] evaluates its right
    operand only when the left one is non-null.  The result is the machine
    after the macro together with the value of the expression. *)
Definition RESTART (m : Machine_CounterC) : Machine_CounterC * bool :=
  let m1 := set_previous_state (current_state m) m in
  if is_nonnull (previous_state m1) then
    let m2 := set_current_state (states_at m1 0) m1 in
    (m2, is_nonnull (current_state m2))
  else (m1, false).

(** The [GET_TIME()] macro, Machine_CounterC.h:
    [(machine->state_time + 1)], in [uintptr_t] arithmetic. *)
Definition GET_TIME (machine : Machine_CounterC) : Z :=
  uintptr_wrap (state_time machine + 1).

(** [fsm_counterc_countup_init], State_CountUp.c. *)
Definition fsm_counterc_countup_init (state : LLFSMState) : LLFSMState :=
  mkState (fn CountUp CheckTransitions)
          (fn CountUp OnEntry)
          (fn CountUp OnExit)
          (fn CountUp Internal)
          (fn CountUp OnSuspend)
          (fn CountUp OnResume).

(** [fsm_counterc_countup_validate], State_CountUp.c. *)
Definition fsm_counterc_countup_validate
    (machine : Machine_CounterC) (state : LLFSMState) : bool :=
  fnptr_eqb (check_transitions state) (fn CountUp CheckTransitions) &&
  fnptr_eqb (on_entry state) (fn CountUp OnEntry) &&
  fnptr_eqb (on_exit state) (fn CountUp OnExit) &&
  fnptr_eqb (internal state) (fn CountUp Internal) &&
  fnptr_eqb (on_suspend state) (fn CountUp OnSuspend) &&
  fnptr_eqb (on_resume state) (fn CountUp OnResume).

(** [fsm_counterc_initial_init], State_Initial.c. *)
Definition fsm_counterc_initial_init (state : LLFSMState) : LLFSMState :=
  mkState (fn Initial CheckTransitions)
          (fn Initial OnEntry)
          (fn Initial OnExit)
          (fn Initial Internal)
          (fn Initial OnSuspend)
          (fn Initial OnResume).

(** [fsm_counterc_initial_validate], State_Initial.c. *)
Definition fsm_counterc_initial_validate
    (machine : Machine_CounterC) (state : LLFSMState) : bool :=
  fnptr_eqb (check_transitions state) (fn Initial CheckTransitions) &&
  fnptr_eqb (on_entry state) (fn Initial OnEntry) &&
  fnptr_eqb (on_exit state) (fn Initial OnExit) &&
  fnptr_eqb (internal state) (fn Initial Internal) &&
  fnptr_eqb (on_suspend state) (fn Initial OnSuspend) &&
  fnptr_eqb (on_resume state) (fn Initial OnResume).

(** The guard expressions ([State_<s>_Transition_0.expr]) are included
    textually by the generated functions; they read the machine.  The
    [state] argument of the functions is only there for these expressions
    and is folded into the machine. *)
Variable Transition_0 : StateName -> Machine_CounterC -> bool.

(** [fsm_counterc_countup_check_transitions], State_CountUp.c. *)
Definition fsm_counterc_countup_check_transitions
    (machine : Machine_CounterC) : ptr :=
  if Transition_0 CountUp machine then states_at machine 3
  else NULL.

(** [fsm_counterc_initial_check_transitions], State_Initial.c. *)
Definition fsm_counterc_initial_check_transitions
    (machine : Machine_CounterC) : ptr :=
  if Transition_0 Initial machine then states_at machine 2
  else NULL.

End Machine.

Arguments Machine_CounterC V : clear implicits.

End CounterC.

Import CounterC.

(** ** The transition scan *)

Module Scan.

Section Scan.

Context {M : Type}.

(** Modelled from the spec: a Transition of section 3, its guard and the
    index of its target state.  The generated sources keep no transition
    table; the states under src/ have one hard-wired transition each. *)
Record Transition := mkTransition {
  guard : M -> bool;
  targetState : nat
}.

(** Modelled from the spec: the scan of section 4.1, step 1, in the words of
    the specification, for a state with any number of transitions (no
    function under src/ has more than one): the target of the first
    transition, in list order, whose guard evaluates true; none when every
    guard is false. *)
Definition checkTransitions (ts : list Transition) (m : M) : option nat :=
  option_map targetState (find (fun t => guard t m) ts).

(** Modelled from the spec: the [check_transitions] function of a state with
    any number of transitions, which is missing from the sources (the two
    generated functions under src/ have a single guard).  It follows their
    shape: one [if (<guard>) return machine->states[<target>];] per
    transition, in order, closed by [return NULL;].  [lookup] is
    [machine->states[.]]. *)
Fixpoint check_transitions_chain
    (lookup : M -> nat -> ptr) (ts : list Transition) (m : M) : ptr :=
  match ts with
  | [] => NULL
  | t :: rest =>
      if guard t m then lookup m (targetState t)
      else check_transitions_chain lookup rest m
  end.

End Scan.

Arguments Transition M : clear implicits.

End Scan.

(** ** Counter.machine (generated C++ headers) *)

Module Counter.

(** [Counter.h]: [CLState *_states[5]] and [numberOfStates()]. *)
Definition states_array_size : nat := 5.
Definition numberOfStates : Z := 5.

(** [CLTransition(toState)]: a transition object holds its target index. *)
Record CLTransition := mkCLTransition { toState : Z }.

Module CountUp.

(** [Transition_0(int toState = 3): CLTransition(toState) {}];
    [None] is the call without the argument. *)
Definition Transition_0 (toState : option Z) : CLTransition :=
  mkCLTransition (match toState with Some t => t | None => 3%Z end).

(** [CLTransition *_transitions[1]] holds the state's one transition
    class, default-constructed; [numberOfTransitions()] returns 1. *)
Definition transitions : list CLTransition := [Transition_0 None].
Definition numberOfTransitions : Z := 1.

End CountUp.

End Counter.

(** ** The execution engine *)

Module Engine.

(** Modelled from the spec: the error taxonomy of section 7; the runtime that
    raises these conditions is not among the sources. *)
Inductive Error := InvalidDefinition | UnsupportedOperation | InvalidState.

(** Modelled from the spec: the result reported by suspend() and resume(),
    whose source is missing. *)
Inductive Status := Success | Failure (e : Error).

(** Modelled from the spec: an observable callback invocation, the function
    called and the state it was called on; the callback bodies are missing. *)
Inductive Event := Call (f : fnptr) (state : addr).

(** The option monad: [None] stands for a dereferenced null or dangling
    state pointer, or a call through a pointer that is not an action. *)
Notation "x <- c ;; k" := (match c with Some x => k | None => None end)
  (at level 61, c at next level, right associativity).

Section Engine.

Context {V : Type}.

(** The guard expressions ([State_<s>_Transition_0.expr]). *)
Variable Transition_0 : StateName -> Machine_CounterC V -> bool.

(** The action bodies ([State_<s>_<Action>.mm]): they read the machine
    and leave a new variable block. *)
Variable action_body : StateName -> Slot -> Machine_CounterC V -> V.

(** The [check_transitions] functions of the states whose [.c] file is
    not at hand (InitialPseudoState, Print, SUSPENDED). *)
Variable other_check_transitions : StateName -> Machine_CounterC V -> ptr.

(** The memory holding the state structs. *)
Variable mem : Memory.

(** Modelled from the spec: what the missing runtime acts on, a machine
    together with the callbacks invoked on it so far. *)
Record Run := mkRun {
  machine : Machine_CounterC V;
  trace : list Event
}.

(** Modelled from the spec: the missing runtime's call
    [state->check_transitions(machine, state)], dispatched on the function the
    pointer designates. *)
Definition call_check_transitions (f : fnptr) (m : Machine_CounterC V)
  : option ptr :=
  match f with
  | fn CountUp CheckTransitions =>
      Some (fsm_counterc_countup_check_transitions Transition_0 m)
  | fn Initial CheckTransitions =>
      Some (fsm_counterc_initial_check_transitions Transition_0 m)
  | fn s CheckTransitions => Some (other_check_transitions s m)
  | _ => None
  end.

(** Modelled from the spec: the five lifecycle callbacks, as opposed to the
    transition check. *)
Definition is_action (k : Slot) : bool :=
  match k with CheckTransitions => false | _ => true end.

(** Modelled from the spec: the missing runtime invoking a lifecycle callback
    on the state at address [a]; the call is recorded and its body updates the
    variables. *)
Definition call_action (f : fnptr) (a : addr) (r : Run) : option Run :=
  match f with
  | fn s k =>
      if is_action k then
        Some (mkRun (set_variables (action_body s k (machine r)) (machine r))
                    (trace r ++ [Call f a]))
      else None
  | fn_null => None
  end.

(** Modelled from the spec: isSuspended(machine), missing from the sources; a
    machine is suspended when [resumeState] is not none (section 4.2). *)
Definition isSuspended (m : Machine_CounterC V) : bool :=
  is_nonnull (resume_state m).

(** Modelled from the spec: the test of step() that is missing from the
    sources, a target was found and it is not the current state. *)
Definition fires (target : ptr) (a : addr) : bool :=
  match target with
  | Some t => negb (Nat.eqb t a)
  | None => false
  end.

(** Modelled from the spec: Machine.step(), section 4.1; the runtime function
    is missing from the sources.  A suspended machine is left alone; a found
    target other than the current state gives exit, move, entry; otherwise
    the internal action runs and the state time is incremented. *)
Definition step (r : Run) : option Run :=
  let m := machine r in
  if isSuspended m then Some r else
  a <- current_state m ;;
  s <- nth_error mem a ;;
  target <- call_check_transitions (check_transitions s) m ;;
  if fires target a then
    r1 <- call_action (on_exit s) a r ;;
    let m1 := machine r1 in
    let m2 := set_state_time 0%Z
                (set_current_state target
                   (set_previous_state (current_state m1) m1)) in
    a' <- current_state m2 ;;
    s' <- nth_error mem a' ;;
    call_action (on_entry s') a' (mkRun m2 (trace r1))
  else
    r1 <- call_action (internal s) a r ;;
    let m1 := machine r1 in
    Some (mkRun (set_state_time (uintptr_wrap (state_time m1 + 1)) m1)
                (trace r1)).

(** Modelled from the spec: [n] consecutive step() calls, as the missing
    scheduler issues them. *)
Fixpoint steps (n : nat) (r : Run) : option Run :=
  match n with
  | O => Some r
  | S k => r1 <- step r ;; steps k r1
  end.

(** Modelled from the spec: Machine.suspend(), section 4.2; the runtime
    function is missing from the sources. *)
Definition suspend (r : Run) : option (Status * Run) :=
  let m := machine r in
  if is_nonnull (suspend_state m) then
    if isSuspended m then Some (Success, r) else
    a <- current_state m ;;
    s <- nth_error mem a ;;
    r1 <- call_action (on_suspend s) a r ;;
    let m1 := machine r1 in
    let m2 := set_state_time 0%Z
                (set_current_state (suspend_state m1)
                   (set_resume_state (current_state m1) m1)) in
    Some (Success, mkRun m2 (trace r1))
  else Some (Failure UnsupportedOperation, r).

(** Modelled from the spec: Machine.resume(), section 4.2; the runtime
    function is missing from the sources. *)
Definition resume (r : Run) : option (Status * Run) :=
  let m := machine r in
  if isSuspended m then
    let m1 := set_state_time 0%Z
                (set_resume_state NULL
                   (set_current_state (resume_state m) m)) in
    a <- current_state m1 ;;
    s <- nth_error mem a ;;
    r1 <- call_action (on_resume s) a (mkRun m1 (trace r)) ;;
    Some (Success, r1)
  else Some (Failure InvalidState, r).

(** Modelled from the spec: the runs the missing runtime reaches from a
    machine initialised by [fsm_counterc_init], through step(), suspend() and
    resume() calls that return. *)
Inductive reachable (m0 : Machine_CounterC V) : Run -> Prop :=
| reach_init : reachable m0 (mkRun (fsm_counterc_init m0) [])
| reach_step r r' :
    reachable m0 r -> step r = Some r' -> reachable m0 r'
| reach_suspend r st r' :
    reachable m0 r -> suspend r = Some (st, r') -> reachable m0 r'
| reach_resume r st r' :
    reachable m0 r -> resume r = Some (st, r') -> reachable m0 r'.

End Engine.

Arguments Run V : clear implicits.

End Engine.

Import Engine.

(** ** Concrete machines used to exercise the definitions *)

Module Examples.

(** A zeroed state struct. *)
Definition blank : LLFSMState :=
  mkState fn_null fn_null fn_null fn_null fn_null fn_null.

(** The five state structs, at addresses 0..4 in the order
    Initial, InitialPseudoState, CountUp, Print, SUSPENDED. *)
Definition memory : Memory :=
  [ fsm_counterc_initial_init blank;
    registered InitialPseudoState;
    fsm_counterc_countup_init blank;
    registered Print;
    registered SUSPENDED ].

(** A CountUp struct whose [on_entry] was bound to Initial's function. *)
Definition corrupted_countup : LLFSMState :=
  mkState (fn CountUp CheckTransitions) (fn Initial OnEntry)
          (fn CountUp OnExit) (fn CountUp Internal)
          (fn CountUp OnSuspend) (fn CountUp OnResume).

Definition corrupted_memory : Memory :=
  [ fsm_counterc_initial_init blank;
    registered InitialPseudoState;
    corrupted_countup;
    registered Print;
    registered SUSPENDED ].

(** A machine over that memory, before and after [fsm_counterc_init]. *)
Definition raw_machine : Machine_CounterC unit :=
  mkMachine NULL NULL 0%Z NULL NULL
            [Some 0; Some 1; Some 2; Some 3; Some 4] tt.
Definition fresh_machine : Machine_CounterC unit :=
  fsm_counterc_init raw_machine.

(** The machine while in CountUp, seven ticks after entering it. *)
Definition counting_machine : Machine_CounterC unit :=
  mkMachine (Some 2) (Some 0) 7%Z (Some 4) NULL
            [Some 0; Some 1; Some 2; Some 3; Some 4] tt.

(** A machine that has no current state. *)
Definition stateless_machine : Machine_CounterC unit :=
  mkMachine NULL (Some 2) 7%Z (Some 4) NULL
            [Some 0; Some 1; Some 2; Some 3; Some 4] tt.

(** A machine whose state time is the largest [uintptr_t]. *)
Definition saturated_machine : Machine_CounterC unit :=
  mkMachine (Some 2) (Some 0) UINTPTR_MAX (Some 4) NULL
            [Some 0; Some 1; Some 2; Some 3; Some 4] tt.

(** Guards: every transition fires unconditionally, except CountUp's,
    which stays false. *)
Definition guards (s : StateName) (m : Machine_CounterC unit) : bool :=
  match s with CountUp => false | _ => true end.

(** Guards that are all true. *)
Definition all_true (s : StateName) (m : Machine_CounterC unit) : bool := true.

Definition actions (s : StateName) (k : Slot) (m : Machine_CounterC unit) : unit := tt.

(** The transitions of the states whose [.c] file is not at hand, along the
    chain InitialPseudoState -> CountUp, Print -> SUSPENDED. *)
Definition others (s : StateName) (m : Machine_CounterC unit) : ptr :=
  match s with
  | InitialPseudoState => states_at m 2
  | Print => states_at m 4
  | _ => NULL
  end.

Definition fresh_run : Run unit := mkRun fresh_machine [].
Definition counting_run : Run unit := mkRun counting_machine [].

(** Three transitions of which the last two have a true guard. *)
Definition three_transitions : list (Scan.Transition (Machine_CounterC unit)) :=
  [ Scan.mkTransition (fun _ => false) 1;
    Scan.mkTransition (fun _ => true) 3;
    Scan.mkTransition (fun _ => true) 4 ].

(** For the scan: InitialPseudoState checked through [three_transitions],
    and a machine sitting in InitialPseudoState. *)
Definition scanning_others (s : StateName) (m : Machine_CounterC unit) : ptr :=
  match s with
  | InitialPseudoState =>
      Scan.check_transitions_chain states_at three_transitions m
  | _ => NULL
  end.

Definition pseudo_run : Run unit :=
  mkRun (mkMachine (Some 1) NULL 0%Z (Some 4) NULL
                   [Some 0; Some 1; Some 2; Some 3; Some 4] tt) [].





End Examples.

(** * Properties *)

(** ** Basic facts *)

Lemma StateName_eqb_eq (a b : StateName) : StateName_eqb a b = true <-> a = b.
Proof. destruct a, b; simpl; split; intros; congruence. Qed.

Lemma Slot_eqb_eq (a b : Slot) : Slot_eqb a b = true <-> a = b.
Proof. destruct a, b; simpl; split; intros; congruence. Qed.

Lemma fnptr_eqb_eq (f g : fnptr) : fnptr_eqb f g = true <-> f = g.
Proof.
  destruct f as [|s k], g as [|s' k']; simpl; try (split; intros; congruence).
  rewrite andb_true_iff, StateName_eqb_eq, Slot_eqb_eq.
  split; [intros [-> ->]; reflexivity | intros H; inversion H; auto].
Qed.

Lemma is_nonnull_true (p : ptr) : is_nonnull p = true <-> p <> NULL.
Proof. unfold is_nonnull, NULL. destruct p; simpl; split; intros; congruence. Qed.

Lemma is_nonnull_false (p : ptr) : is_nonnull p = false <-> p = NULL.
Proof. unfold is_nonnull, NULL. destruct p; simpl; split; intros; congruence. Qed.

Lemma uintptr_wrap_small (z : Z) :
  (0 <= z <= UINTPTR_MAX)%Z -> uintptr_wrap z = z.
Proof.
  unfold uintptr_wrap, UINTPTR_MAX. intros H. apply Z.mod_small. lia.
Qed.

Lemma uintptr_wrap_succ (z : Z) :
  uintptr_wrap (uintptr_wrap z + 1) = uintptr_wrap (z + 1).
Proof. unfold uintptr_wrap. apply Z.add_mod_idemp_l. discriminate. Qed.

(** The state-level validators accept exactly the table their [init]
    function installs. *)
Lemma fsm_counterc_countup_validate_iff {V} (m : Machine_CounterC V) (s : LLFSMState) :
  fsm_counterc_countup_validate m s = true <-> s = fsm_counterc_countup_init s.
Proof.
  unfold fsm_counterc_countup_validate, fsm_counterc_countup_init.
  rewrite !andb_true_iff, !fnptr_eqb_eq. destruct s; simpl.
  split.
  - intros [[[[[-> ->] ->] ->] ->] ->]. reflexivity.
  - intros H; inversion H; subst; tauto.
Qed.

Lemma fsm_counterc_initial_validate_iff {V} (m : Machine_CounterC V) (s : LLFSMState) :
  fsm_counterc_initial_validate m s = true <-> s = fsm_counterc_initial_init s.
Proof.
  unfold fsm_counterc_initial_validate, fsm_counterc_initial_init.
  rewrite !andb_true_iff, !fnptr_eqb_eq. destruct s; simpl.
  split.
  - intros [[[[[-> ->] ->] ->] ->] ->]. reflexivity.
  - intros H; inversion H; subst; tauto.
Qed.

Lemma fsm_counterc_countup_init_registered (s : LLFSMState) :
  fsm_counterc_countup_init s = registered CountUp.
Proof. reflexivity. Qed.

Lemma fsm_counterc_initial_init_registered (s : LLFSMState) :
  fsm_counterc_initial_init s = registered Initial.
Proof. reflexivity. Qed.

(** The machine-level validator looks at [current_state] only. *)
Lemma fsm_counterc_validate_iff {V} (m : Machine_CounterC V) :
  fsm_counterc_validate m = true <-> current_state m <> NULL.
Proof.
  unfold fsm_counterc_validate. rewrite andb_true_r. apply is_nonnull_true.
Qed.

(** ** The validators *)

(** C1 (the code departs from the claim).  [fsm_counterc_validate] accepts a
    machine one of whose state structs carries a mismatched callback: the
    CountUp struct at [states[2]] has [on_entry] bound to Initial's function,
    the state-level validator [fsm_counterc_countup_validate] rejects that
    struct, and the machine-level validator still returns true, since it only
    tests [current_state] for null. *)
Theorem fsm_counterc_validate_accepts_corrupted_table :
  states_at Examples.fresh_machine 2 = Some 2 /\
  nth_error Examples.corrupted_memory 2 = Some Examples.corrupted_countup /\
  on_entry Examples.corrupted_countup = fn Initial OnEntry /\
  on_entry (fsm_counterc_countup_init Examples.blank) = fn CountUp OnEntry /\
  fsm_counterc_countup_validate Examples.fresh_machine
    Examples.corrupted_countup = false /\
  fsm_counterc_validate Examples.fresh_machine = true.
Proof. repeat split. Qed.

(** ** Initialisation *)

(** C4.  After [fsm_counterc_init] the current state is [states[0]], there is
    no previous state, the state time is 0 and there is no resume state; the
    suspend state is [states[4]], the state table and the variables are kept,
    and a following [RESTART] leaves the resume state none. *)
Theorem fsm_counterc_init_fresh :
  forall (V : Type) (m : Machine_CounterC V),
    let m' := fsm_counterc_init m in
    current_state m' = states_at m' 0 /\
    previous_state m' = NULL /\
    state_time m' = 0%Z /\
    resume_state m' = NULL /\
    suspend_state m' = states_at m' 4 /\
    states m' = states m /\
    variables m' = variables m /\
    resume_state (fst (RESTART m')) = NULL.
Proof.
  intros V m m'. subst m'. unfold fsm_counterc_init, RESTART; simpl.
  repeat split.
  destruct (is_nonnull _); reflexivity.
Qed.

(** ** The GET_TIME macro *)

(** C5.  [GET_TIME()] is [state_time + 1] computed in [uintptr_t]: it equals
    the state time plus one whenever that sum is representable, it is a
    function of the logical tick counter [state_time] alone, and right after
    initialisation it is 1. *)
Theorem GET_TIME_is_state_time_plus_one :
  forall (V : Type) (m : Machine_CounterC V),
    GET_TIME m = uintptr_wrap (state_time m + 1) /\
    ((0 <= state_time m < UINTPTR_MAX)%Z -> GET_TIME m = (state_time m + 1)%Z) /\
    (forall m' : Machine_CounterC V,
        state_time m' = state_time m -> GET_TIME m' = GET_TIME m) /\
    GET_TIME (fsm_counterc_init m) = 1%Z.
Proof.
  intros V m. unfold GET_TIME. repeat split.
  - intros H. apply uintptr_wrap_small. lia.
  - intros m' ->. reflexivity.
Qed.

Lemma GET_TIME_is_state_time_plus_one_witness :
  (0 <= state_time Examples.counting_machine < UINTPTR_MAX)%Z /\
  GET_TIME Examples.counting_machine = 8%Z.
Proof.
  split.
  - unfold UINTPTR_MAX, UINTPTR_WIDTH; simpl; lia.
  - apply (proj1 (proj2 (GET_TIME_is_state_time_plus_one unit
                           Examples.counting_machine))).
    unfold UINTPTR_MAX, UINTPTR_WIDTH; simpl; lia.
Defined.

(** At the largest [uintptr_t] the sum wraps around. *)
Lemma GET_TIME_wraps :
  state_time Examples.saturated_machine = UINTPTR_MAX /\
  GET_TIME Examples.saturated_machine = 0%Z.
Proof. split; reflexivity. Qed.

(** ** The RESTART macro *)

(** C9, as stated, fails on a machine without a current state: the first
    assignment yields a null pointer, [&&] skips the second one, and
    [current_state] is not set to [states[0]]. *)
Lemma RESTART_null_current_state_counterexample :
  current_state Examples.stateless_machine = NULL /\
  states_at Examples.stateless_machine 0 = Some 0 /\
  current_state (fst (RESTART Examples.stateless_machine)) = NULL /\
  ~ (forall m : Machine_CounterC unit,
        previous_state (fst (RESTART m)) = current_state m /\
        current_state (fst (RESTART m)) = states_at m 0).
Proof.
  repeat split.
  intros H. destruct (H Examples.stateless_machine) as [_ H1].
  discriminate H1.
Qed.

(** C9 (amended).  [RESTART(m)] sets [previous_state] to the old
    [current_state]; when that is non-null it sets [current_state] to
    [states[0]], and when it is null it leaves [current_state] null.  No other
    field changes: [state_time], [suspend_state], [resume_state], the state
    table and the variables are kept.  The macro is an expression over the
    machine's fields and calls no function; its value tells whether both
    assigned pointers were non-null. *)
Theorem RESTART_frame :
  forall (V : Type) (m : Machine_CounterC V),
    let m' := fst (RESTART m) in
    previous_state m' = current_state m /\
    (current_state m <> NULL -> current_state m' = states_at m 0) /\
    (current_state m = NULL -> current_state m' = NULL) /\
    state_time m' = state_time m /\
    suspend_state m' = suspend_state m /\
    resume_state m' = resume_state m /\
    states m' = states m /\
    variables m' = variables m /\
    snd (RESTART m) =
      is_nonnull (current_state m) && is_nonnull (states_at m 0).
Proof.
  intros V m. unfold RESTART; simpl.
  destruct (current_state m) as [a|] eqn:E; simpl; unfold NULL;
    repeat split; congruence.
Qed.

Lemma RESTART_frame_witness :
  current_state Examples.counting_machine <> NULL /\
  current_state (fst (RESTART Examples.counting_machine)) = Some 0 /\
  previous_state (fst (RESTART Examples.counting_machine)) = Some 2 /\
  current_state Examples.stateless_machine = NULL /\
  current_state (fst (RESTART Examples.stateless_machine)) = NULL.
Proof.
  pose proof (RESTART_frame unit Examples.counting_machine) as H.
  pose proof (RESTART_frame unit Examples.stateless_machine) as H0.
  simpl in H, H0.
  destruct H as (Hp & Hc & _). destruct H0 as (_ & _ & Hn & _).
  assert (Hnn : current_state Examples.counting_machine <> NULL)
    by (simpl; discriminate).
  split; [exact Hnn|].
  split; [exact (Hc Hnn)|].
  split; [exact Hp|].
  split; [reflexivity|].
  exact (Hn eq_refl).
Defined.

(** ** The transition scan *)

Section ScanFacts.

Context {M : Type}.
Implicit Types (ts : list (Scan.Transition M)) (m : M).

(** The generated chain returns the state the specified scan selects. *)
Lemma check_transitions_chain_refines (lookup : M -> nat -> ptr) ts m :
  Scan.check_transitions_chain lookup ts m =
  match Scan.checkTransitions ts m with
  | Some i => lookup m i
  | None => NULL
  end.
Proof.
  unfold Scan.checkTransitions.
  induction ts as [|t rest IH]; simpl; [reflexivity|].
  destruct (Scan.guard t m); simpl; [reflexivity | exact IH].
Qed.

(** Guards that are false ahead of a transition do not take part. *)
Lemma checkTransitions_skip pre ts m :
  (forall u, In u pre -> Scan.guard u m = false) ->
  Scan.checkTransitions (pre ++ ts) m = Scan.checkTransitions ts m.
Proof.
  unfold Scan.checkTransitions.
  induction pre as [|u pre IH]; simpl; intros H; [reflexivity|].
  rewrite (H u (or_introl eq_refl)). apply IH.
  intros v Hv. apply H. right. exact Hv.
Qed.

Lemma checkTransitions_first pre t post m :
  (forall u, In u pre -> Scan.guard u m = false) ->
  Scan.guard t m = true ->
  Scan.checkTransitions (pre ++ t :: post) m = Some (Scan.targetState t).
Proof.
  intros Hpre Ht. rewrite checkTransitions_skip by exact Hpre.
  unfold Scan.checkTransitions; simpl. rewrite Ht. reflexivity.
Qed.

Lemma checkTransitions_none ts m :
  (forall u, In u ts -> Scan.guard u m = false) <->
  Scan.checkTransitions ts m = None.
Proof.
  unfold Scan.checkTransitions. split.
  - intros H. destruct (find _ ts) as [t|] eqn:E; [|reflexivity].
    apply find_some in E. destruct E as [Hin Hg].
    rewrite (H t Hin) in Hg. discriminate.
  - intros H u Hu. destruct (find _ ts) as [t|] eqn:E; [discriminate|].
    destruct (Scan.guard u m) eqn:G; [|reflexivity].
    pose proof (find_none _ _ E u Hu) as F. simpl in F. congruence.
Qed.

End ScanFacts.

(** ** Counter.machine against CounterC.machine *)

(** C10.  The generated C++ and C machines have the same structure: both
    declare 5 states, and CountUp has exactly one transition, to state index
    3, in both: the C function is the chain of [if]s over the C++ transition
    list, so it returns [states[3]] when its guard holds and null otherwise. *)
Theorem Counter_and_CounterC_agree :
  forall (V : Type) (Transition_0 : StateName -> Machine_CounterC V -> bool)
         (m : Machine_CounterC V),
    Counter.numberOfStates = 5%Z /\
    Counter.states_array_size = 5 /\
    MACHINE_COUNTERC_NUMBER_OF_STATES = 5 /\
    Counter.CountUp.numberOfTransitions = 1%Z /\
    length Counter.CountUp.transitions = 1 /\
    map Counter.toState Counter.CountUp.transitions = [3%Z] /\
    fsm_counterc_countup_check_transitions Transition_0 m =
      Scan.check_transitions_chain states_at
        (map (fun t => Scan.mkTransition (Transition_0 CountUp)
                         (Z.to_nat (Counter.toState t)))
             Counter.CountUp.transitions) m /\
    fsm_counterc_countup_check_transitions Transition_0 m =
      (if Transition_0 CountUp m then states_at m 3 else NULL).
Proof. intros V T0 m. repeat split. Qed.

(** ** The engine *)

Section EngineFacts.

Context {V : Type}.
Variable Transition_0 : StateName -> Machine_CounterC V -> bool.
Variable action_body : StateName -> Slot -> Machine_CounterC V -> V.
Variable other_check_transitions : StateName -> Machine_CounterC V -> ptr.
Variable mem : Memory.

Local Abbreviation step := (step Transition_0 action_body other_check_transitions mem).
Local Abbreviation steps := (steps Transition_0 action_body other_check_transitions mem).
Local Abbreviation suspend := (suspend action_body mem).
Local Abbreviation resume := (resume action_body mem).
Local Abbreviation call_action := (call_action action_body).

(** A callback records one call and touches the variables only. *)
Lemma call_action_inv f a (r r1 : Run V) :
  call_action f a r = Some r1 ->
  exists v, r1 = mkRun (set_variables v (machine r)) (trace r ++ [Call f a]).
Proof.
  unfold Engine.call_action. destruct f as [|s k]; [discriminate|].
  destruct (is_action k); [|discriminate].
  intros H; injection H as <-. eexists; reflexivity.
Qed.

Lemma call_action_fn s k a (r : Run V) :
  is_action k = true ->
  call_action (fn s k) a r =
  Some (mkRun (set_variables (action_body s k (machine r)) (machine r))
              (trace r ++ [Call (fn s k) a])).
Proof. intros H. unfold Engine.call_action. rewrite H. reflexivity. Qed.

Lemma fires_true target a :
  fires target a = true -> exists t, target = Some t /\ t <> a.
Proof.
  destruct target as [t|]; simpl; [|discriminate].
  intros H. exists t. split; [reflexivity|].
  apply Nat.eqb_neq. apply negb_true_iff. exact H.
Qed.

(** What one step() does, case by case. *)
Lemma step_cases (r r' : Run V) :
  step r = Some r' ->
  (isSuspended (machine r) = true /\ r' = r) \/
  (exists a s target t s' v v',
      isSuspended (machine r) = false /\
      current_state (machine r) = Some a /\ nth_error mem a = Some s /\
      call_check_transitions Transition_0 other_check_transitions
        (check_transitions s) (machine r) = Some target /\
      target = Some t /\ t <> a /\ nth_error mem t = Some s' /\
      r' = mkRun (set_variables v'
                    (set_state_time 0%Z
                       (set_current_state target
                          (set_previous_state (Some a)
                             (set_variables v (machine r))))))
                 (trace r ++ [Call (on_exit s) a] ++ [Call (on_entry s') t])) \/
  (exists a s target v,
      isSuspended (machine r) = false /\
      current_state (machine r) = Some a /\ nth_error mem a = Some s /\
      call_check_transitions Transition_0 other_check_transitions
        (check_transitions s) (machine r) = Some target /\
      fires target a = false /\
      r' = mkRun (set_state_time (uintptr_wrap (state_time (machine r) + 1))
                    (set_variables v (machine r)))
                 (trace r ++ [Call (internal s) a])).
Proof.
  unfold Engine.step.
  destruct (isSuspended (machine r)) eqn:Hs.
  { intros H; injection H as <-. left. split; reflexivity. }
  destruct (current_state (machine r)) as [a|] eqn:Hc; [|discriminate].
  destruct (nth_error mem a) as [s|] eqn:Hm; [|discriminate].
  destruct (call_check_transitions _ _ _ _) as [target|] eqn:Ht; [|discriminate].
  destruct (fires target a) eqn:Hf.
  - destruct (call_action (on_exit s) a r) as [r1|] eqn:Hx; [|discriminate].
    apply call_action_inv in Hx. destruct Hx as [v ->]. simpl.
    apply fires_true in Hf. destruct Hf as (t & -> & Hne).
    destruct (nth_error mem t) as [s'|] eqn:Hm'; [|discriminate].
    intros H. apply call_action_inv in H. destruct H as [v' ->]. simpl.
    right; left. exists a, s, (Some t), t, s', v, v'.
    rewrite Hc, <- app_assoc. repeat split; auto.
  - destruct (call_action (internal s) a r) as [r1|] eqn:Hx; [|discriminate].
    apply call_action_inv in Hx. destruct Hx as [v ->]. simpl.
    intros H; injection H as <-.
    right; right. exists a, s, target, v. repeat split; auto.
Qed.

(** One step() moves the machine at most once: it either keeps the current
    state, or leaves it for the one state [check_transitions] returned,
    calling one [on_exit] and one [on_entry]. *)
Lemma step_fires_at_most_one_transition (r r' : Run V) :
  step r = Some r' ->
  (current_state (machine r') = current_state (machine r) /\
   previous_state (machine r') = previous_state (machine r) /\
   (trace r' = trace r \/ exists e, trace r' = trace r ++ [e])) \/
  (exists a s s' t,
      current_state (machine r) = Some a /\ nth_error mem a = Some s /\
      nth_error mem t = Some s' /\
      call_check_transitions Transition_0 other_check_transitions
        (check_transitions s) (machine r) = Some (Some t) /\
      current_state (machine r') = Some t /\
      previous_state (machine r') = Some a /\
      trace r' = trace r ++ [Call (on_exit s) a; Call (on_entry s') t]).
Proof.
  intros H. apply step_cases in H.
  destruct H as [[_ ->] | [H | H]].
  - left. repeat split. left. reflexivity.
  - destruct H as (a & s & target & t & s' & v & v' & _ & Hc & Hm & Ht & -> & _ & Hm' & ->).
    right. exists a, s, s', t. simpl. repeat split; auto.
  - destruct H as (a & s & target & v & _ & Hc & Hm & Ht & Hf & ->).
    left. simpl. repeat split. right. eexists; reflexivity.
Qed.

(** step() returns whenever the current state and the state its transition
    scan selects carry their registered dispatch tables. *)
Lemma step_returns (r : Run V) (a : addr) (n : StateName) :
  current_state (machine r) = Some a ->
  nth_error mem a = Some (registered n) ->
  (forall t,
      call_check_transitions Transition_0 other_check_transitions
        (fn n CheckTransitions) (machine r) = Some (Some t) ->
      exists n', nth_error mem t = Some (registered n')) ->
  exists r', step r = Some r'.
Proof.
  intros Hc Hm Ht. unfold Engine.step.
  destruct (isSuspended (machine r)); [eexists; reflexivity|].
  rewrite Hc, Hm. cbv beta iota.
  change (check_transitions (registered n)) with (fn n CheckTransitions).
  assert (Hd : exists target,
             call_check_transitions Transition_0 other_check_transitions
               (fn n CheckTransitions) (machine r) = Some target)
    by (destruct n; simpl; eexists; reflexivity).
  destruct Hd as [target Hd]. rewrite Hd.
  destruct (fires target a) eqn:Hf; [|eexists; reflexivity].
  apply fires_true in Hf. destruct Hf as (t & -> & _).
  destruct (Ht t Hd) as [n' Hm']. simpl. rewrite Hm'. simpl.
  eexists; reflexivity.
Qed.

(** What suspend() and resume() do to the machine: nothing, or a move that
    leaves the state time at 0 and records exactly one callback. *)
Lemma suspend_cases (r r' : Run V) (st : Status) :
  suspend r = Some (st, r') ->
  r' = r \/
  (exists a s v,
      st = Success /\ isSuspended (machine r) = false /\
      current_state (machine r) = Some a /\ nth_error mem a = Some s /\
      r' = mkRun (set_state_time 0%Z
                    (set_current_state (suspend_state (machine r))
                       (set_resume_state (Some a)
                          (set_variables v (machine r)))))
                 (trace r ++ [Call (on_suspend s) a])).
Proof.
  unfold Engine.suspend.
  destruct (is_nonnull (suspend_state (machine r)));
    [|intros H; injection H as _ <-; left; reflexivity].
  destruct (isSuspended (machine r)) eqn:Hs;
    [intros H; injection H as _ <-; left; reflexivity|].
  destruct (current_state (machine r)) as [a|] eqn:Hc; [|discriminate].
  destruct (nth_error mem a) as [s|] eqn:Hm; [|discriminate].
  destruct (call_action (on_suspend s) a r) as [r1|] eqn:Hx; [|discriminate].
  apply call_action_inv in Hx. destruct Hx as [v ->]. simpl.
  intros H; injection H as <- <-.
  right. exists a, s, v. rewrite Hc. repeat split; auto.
Qed.

Lemma resume_cases (r r' : Run V) (st : Status) :
  resume r = Some (st, r') ->
  (st = Failure InvalidState /\ isSuspended (machine r) = false /\ r' = r) \/
  (exists a s v,
      st = Success /\ resume_state (machine r) = Some a /\
      nth_error mem a = Some s /\
      r' = mkRun (set_variables v
                    (set_state_time 0%Z
                       (set_resume_state NULL
                          (set_current_state (Some a) (machine r)))))
                 (trace r ++ [Call (on_resume s) a])).
Proof.
  unfold Engine.resume.
  destruct (isSuspended (machine r)) eqn:Hs;
    [|intros H; injection H as <- <-; left; repeat split].
  simpl.
  destruct (resume_state (machine r)) as [a|] eqn:Hr; [|discriminate].
  destruct (nth_error mem a) as [s|] eqn:Hm; [|discriminate].
  destruct (call_action (on_resume s) a _) as [r1|] eqn:Hx; [|discriminate].
  apply call_action_inv in Hx. destruct Hx as [v ->]. simpl.
  intros H; injection H as <- <-.
  right. exists a, s, v. repeat split; auto.
Qed.

(** The engine's invariant: along every run, a resume state is held only
    while the machine is parked in its suspend state, the suspend state and
    the state table are those set up by initialisation, and the state time is
    a [uintptr_t]. *)
Lemma reachable_invariant (m0 : Machine_CounterC V) (r : Run V) :
  reachable Transition_0 action_body other_check_transitions mem m0 r ->
  (resume_state (machine r) <> NULL ->
   current_state (machine r) = suspend_state (machine r)) /\
  suspend_state (machine r) = states_at m0 4 /\
  states (machine r) = states m0 /\
  (0 <= state_time (machine r) <= UINTPTR_MAX)%Z.
Proof.
  assert (Hw : forall z, (0 <= uintptr_wrap z <= UINTPTR_MAX)%Z).
  { intros z. unfold uintptr_wrap, UINTPTR_MAX.
    pose proof (Z.mod_pos_bound z (2 ^ UINTPTR_WIDTH) eq_refl). lia. }
  assert (H0 : (0 <= 0 <= UINTPTR_MAX)%Z) by (apply (Hw 0%Z)).
  induction 1 as [|r r' _ IH Hs|r st r' _ IH Hs|r st r' _ IH Hs].
  - simpl. repeat split; try congruence. exact (proj1 H0). exact (proj2 H0).
  - destruct IH as (Hi & Hsus & Hst & Hb).
    apply step_cases in Hs. destruct Hs as [[_ ->] | [Hs | Hs]].
    + repeat split; try assumption; apply Hb.
    + destruct Hs as (a & s & target & t & s' & v & v' & Hn & _ & _ & _ & _ & _ & _ & ->).
      simpl. apply is_nonnull_false in Hn.
      repeat split; try assumption; try congruence; apply H0.
    + destruct Hs as (a & s & target & v & Hn & _ & _ & _ & _ & ->).
      simpl. apply is_nonnull_false in Hn.
      repeat split; try assumption; try congruence; apply Hw.
  - destruct IH as (Hi & Hsus & Hst & Hb).
    apply suspend_cases in Hs.
    destruct Hs as [-> | (a & s & v & _ & _ & _ & _ & ->)].
    + repeat split; try assumption; apply Hb.
    + simpl. repeat split; try assumption; try reflexivity; apply H0.
  - destruct IH as (Hi & Hsus & Hst & Hb).
    apply resume_cases in Hs.
    destruct Hs as [(_ & _ & ->) | (a & s & v & _ & _ & _ & ->)].
    + repeat split; try assumption; apply Hb.
    + simpl. repeat split; try assumption; try congruence; apply H0.
Qed.

(** suspend() is idempotent: a second call in a row changes nothing. *)
Lemma suspend_idempotent (r r1 : Run V) (st : Status) :
  suspend r = Some (st, r1) ->
  suspend r1 = Some (st, r1).
Proof.
  intros H. pose proof H as H'. apply suspend_cases in H'.
  destruct H' as [-> | (a & s & v & -> & Hn & Ha & Hm & ->)]; [exact H|].
  unfold Engine.suspend in *. simpl.
  destruct (is_nonnull (suspend_state (machine r))); [|discriminate H].
  reflexivity.
Qed.

(** C8.  resume() on a machine that is not suspended ([resume_state] is
    none) reports [InvalidState] and returns the run as it was: the machine,
    with its current state and state time, is unchanged, and no callback is
    added to the trace. *)
Theorem resume_not_suspended_fails :
  forall r : Run V,
    resume_state (machine r) = NULL ->
    resume r = Some (Failure InvalidState, r).
Proof.
  intros r H. unfold Engine.resume, isSuspended. rewrite H. reflexivity.
Qed.

(** C7.  On a suspensible machine that is not suspended and whose current
    state carries its own suspend and resume callbacks, suspend() succeeds,
    parks the machine in the suspend state and remembers the state it left;
    the resume() that follows succeeds and restores exactly that state.  The
    two calls add [on_suspend] then [on_resume] of the state that was left to
    the trace, and nothing else: no [on_exit] or [on_entry] runs. *)
Theorem suspend_then_resume_restores :
  forall (r : Run V) (a sa : addr) (s : LLFSMState) (n : StateName),
    suspend_state (machine r) = Some sa ->
    resume_state (machine r) = NULL ->
    current_state (machine r) = Some a ->
    nth_error mem a = Some s ->
    on_suspend s = fn n OnSuspend ->
    on_resume s = fn n OnResume ->
    exists r1 r2,
      suspend r = Some (Success, r1) /\
      current_state (machine r1) = Some sa /\
      resume_state (machine r1) = Some a /\
      trace r1 = trace r ++ [Call (fn n OnSuspend) a] /\
      resume r1 = Some (Success, r2) /\
      current_state (machine r2) = current_state (machine r) /\
      resume_state (machine r2) = NULL /\
      state_time (machine r2) = 0%Z /\
      trace r2 = trace r ++ [Call (fn n OnSuspend) a; Call (fn n OnResume) a].
Proof.
  intros r a sa s n Hsa Hrs Hc Hm Hsus Hres.
  unfold Engine.suspend, isSuspended.
  rewrite Hsa, Hrs, Hc, Hm, Hsus. simpl. rewrite Hc, Hsa.
  do 2 eexists. split; [reflexivity|]. simpl.
  split; [reflexivity|]. split; [reflexivity|]. split; [reflexivity|].
  unfold Engine.resume, isSuspended. simpl. rewrite Hm, Hres. simpl.
  split; [reflexivity|]. simpl.
  rewrite <- app_assoc. repeat split.
Qed.

(** C3 (amended).  [fsm_counterc_init] leaves the state time at 0.  A step()
    that changes the current state leaves the state time at 0; a step() that
    keeps the current state either does nothing (the machine is suspended) or
    runs the internal action once and adds one to the state time, so step()
    does not decrease the state time below the largest [uintptr_t].
    suspend() and resume() either return the run unchanged or put the machine
    in the suspend state, respectively the resume state, with state time 0,
    also when that is the state the machine is already in.  [RESTART] changes
    the current state without touching the state time. *)
Theorem state_time_reset_and_monotone :
  forall r : Run V,
    state_time (fsm_counterc_init (machine r)) = 0%Z /\
    (forall r',
        step r = Some r' ->
        (current_state (machine r') <> current_state (machine r) ->
         state_time (machine r') = 0%Z) /\
        (current_state (machine r') = current_state (machine r) ->
         (r' = r \/
          exists a s,
            current_state (machine r) = Some a /\ nth_error mem a = Some s /\
            trace r' = trace r ++ [Call (internal s) a] /\
            state_time (machine r') =
              uintptr_wrap (state_time (machine r) + 1)) /\
         ((0 <= state_time (machine r) < UINTPTR_MAX)%Z ->
          (state_time (machine r) <= state_time (machine r'))%Z))) /\
    (forall st r',
        suspend r = Some (st, r') ->
        r' = r \/
        (state_time (machine r') = 0%Z /\
         current_state (machine r') = suspend_state (machine r))) /\
    (forall st r',
        resume r = Some (st, r') ->
        r' = r \/
        (state_time (machine r') = 0%Z /\
         current_state (machine r') = resume_state (machine r))) /\
    state_time (fst (RESTART (machine r))) = state_time (machine r).
Proof.
  intros r. split; [reflexivity|]. split; [|split; [|split]].
  - intros r' H. apply step_cases in H.
    destruct H as [[_ ->] | [H | H]].
    + split; [congruence|]. intros _. split; [left; reflexivity|lia].
    + destruct H as (a & s & target & t & s' & v & v' & _ & Hc & _ & _ & -> & Hne & _ & ->).
      simpl. split; [reflexivity|]. rewrite Hc. intros E. congruence.
    + destruct H as (a & s & target & v & _ & Hc & Hm & _ & _ & ->).
      simpl. split; [congruence|]. intros _. split.
      * right. exists a, s. repeat split; assumption.
      * intros Hr. rewrite uintptr_wrap_small; lia.
  - intros st r' H. apply suspend_cases in H.
    destruct H as [-> | (a & s & v & _ & _ & _ & _ & ->)];
      [left|right; split]; reflexivity.
  - intros st r' H. apply resume_cases in H.
    destruct H as [(_ & _ & ->) | (a & s & v & _ & Hr & _ & ->)];
      [left; reflexivity|right; split; [reflexivity|]].
    simpl. symmetry. exact Hr.
  - unfold RESTART; simpl.
    destruct (is_nonnull (current_state (machine r))); reflexivity.
Qed.

End EngineFacts.

(** ** Running the CounterC machine *)

Section CounterCRun.

Context {V : Type}.
Variable Transition_0 : StateName -> Machine_CounterC V -> bool.
Variable action_body : StateName -> Slot -> Machine_CounterC V -> V.
Variable other_check_transitions : StateName -> Machine_CounterC V -> ptr.
Variable mem : Memory.

Local Abbreviation step := (step Transition_0 action_body other_check_transitions mem).
Local Abbreviation steps := (steps Transition_0 action_body other_check_transitions mem).
Local Abbreviation call_check :=
  (call_check_transitions Transition_0 other_check_transitions).


(** A step() on a machine whose transition check returns another state: the
    machine leaves its state for that one, with exactly one [on_exit] and one
    [on_entry]. *)
Lemma step_fires_to (r : Run V) (a t : addr) (n n' : StateName) :
  resume_state (machine r) = NULL ->
  current_state (machine r) = Some a ->
  nth_error mem a = Some (registered n) ->
  call_check (fn n CheckTransitions) (machine r) = Some (Some t) ->
  t <> a ->
  nth_error mem t = Some (registered n') ->
  exists r',
    step r = Some r' /\
    resume_state (machine r') = NULL /\
    current_state (machine r') = Some t /\
    previous_state (machine r') = Some a /\
    state_time (machine r') = 0%Z /\
    states (machine r') = states (machine r) /\
    trace r' = trace r ++ [Call (fn n OnExit) a; Call (fn n' OnEntry) t].
Proof.
  intros Hr Hc Hm Hcall Hne Hm'. unfold Engine.step, isSuspended.
  rewrite Hr, Hc. cbn [is_nonnull ptr_eqb NULL negb]. rewrite Hm.
  change (check_transitions (registered n)) with (fn n CheckTransitions).
  rewrite Hcall. cbn [fires].
  apply Nat.eqb_neq in Hne. rewrite Hne. cbn [negb].
  change (on_exit (registered n)) with (fn n OnExit).
  cbn [Engine.call_action is_action machine trace].
  cbn [current_state set_state_time set_current_state].
  rewrite Hm'.
  change (on_entry (registered n')) with (fn n' OnEntry).
  cbn [Engine.call_action is_action machine trace].
  eexists. split; [reflexivity|]. cbn.
  rewrite Hc, <- app_assoc. repeat split; assumption.
Qed.


(** C2.  The scan of a state's transitions yields the target of the
    lowest-indexed transition whose guard is true, whatever the guards behind
    it evaluate to, and none exactly when every guard is false; the chain of
    [if]s returns the state so selected.  The generated [check_transitions]
    functions of CountUp and Initial are its one-transition instances.  One
    step() fires at most one transition: it either keeps the current state
    (calling no [on_exit] or [on_entry]) or moves once, to the one state the
    transition check returned, with one [on_exit] and one [on_entry]; and on
    a state whose check is the scan of several transitions, the step moves to
    the target of the lowest-indexed true guard, however many later guards
    are true as well. *)
Theorem check_transitions_first_match :
  forall (ts : list (Scan.Transition (Machine_CounterC V)))
         (m : Machine_CounterC V),
    fsm_counterc_countup_check_transitions Transition_0 m =
      Scan.check_transitions_chain states_at
        [Scan.mkTransition (Transition_0 CountUp) 3] m /\
    fsm_counterc_initial_check_transitions Transition_0 m =
      Scan.check_transitions_chain states_at
        [Scan.mkTransition (Transition_0 Initial) 2] m /\
    Scan.check_transitions_chain states_at ts m =
      match Scan.checkTransitions ts m with
      | Some i => states_at m i
      | None => NULL
      end /\
    (forall pre t post,
        ts = pre ++ t :: post ->
        (forall u, In u pre -> Scan.guard u m = false) ->
        Scan.guard t m = true ->
        Scan.checkTransitions ts m = Some (Scan.targetState t) /\
        Scan.check_transitions_chain states_at ts m =
          states_at m (Scan.targetState t)) /\
    ((forall u, In u ts -> Scan.guard u m = false) <->
     Scan.checkTransitions ts m = None) /\
    ((forall u, In u ts -> Scan.guard u m = false) ->
     Scan.check_transitions_chain states_at ts m = NULL) /\
    (forall r r' : Run V,
        step r = Some r' ->
        (current_state (machine r') = current_state (machine r) /\
         previous_state (machine r') = previous_state (machine r) /\
         (trace r' = trace r \/
          exists a s, nth_error mem a = Some s /\
                      trace r' = trace r ++ [Call (internal s) a])) \/
        (exists a s s' t,
            current_state (machine r) = Some a /\ nth_error mem a = Some s /\
            nth_error mem t = Some s' /\
            call_check (check_transitions s) (machine r) = Some (Some t) /\
            t <> a /\
            current_state (machine r') = Some t /\
            previous_state (machine r') = Some a /\
            trace r' = trace r ++ [Call (on_exit s) a; Call (on_entry s') t])) /\
    (forall (r : Run V) (a b : addr) (n n' : StateName) pre t post,
        machine r = m ->
        resume_state m = NULL ->
        current_state m = Some a ->
        nth_error mem a = Some (registered n) ->
        call_check (fn n CheckTransitions) m =
          Some (Scan.check_transitions_chain states_at ts m) ->
        ts = pre ++ t :: post ->
        (forall u, In u pre -> Scan.guard u m = false) ->
        Scan.guard t m = true ->
        states_at m (Scan.targetState t) = Some b ->
        b <> a ->
        nth_error mem b = Some (registered n') ->
        exists r',
          step r = Some r' /\
          current_state (machine r') = Some b /\
          previous_state (machine r') = Some a /\
          state_time (machine r') = 0%Z /\
          trace r' = trace r ++ [Call (fn n OnExit) a; Call (fn n' OnEntry) b]).
Proof.
  intros ts m.
  assert (Hfirst : forall pre t post,
             ts = pre ++ t :: post ->
             (forall u, In u pre -> Scan.guard u m = false) ->
             Scan.guard t m = true ->
             Scan.checkTransitions ts m = Some (Scan.targetState t) /\
             Scan.check_transitions_chain states_at ts m =
               states_at m (Scan.targetState t)).
  { intros pre t post -> Hpre Ht.
    assert (E : Scan.checkTransitions (pre ++ t :: post) m
                = Some (Scan.targetState t))
      by (apply checkTransitions_first; assumption).
    split; [exact E|].
    rewrite check_transitions_chain_refines, E. reflexivity. }
  split; [reflexivity|]. split; [reflexivity|].
  split; [apply check_transitions_chain_refines|].
  split; [exact Hfirst|].
  split; [apply checkTransitions_none|].
  split.
  { intros H. apply checkTransitions_none in H.
    rewrite check_transitions_chain_refines, H. reflexivity. }
  split.
  - intros r r' H.
    apply (step_cases Transition_0 action_body other_check_transitions mem) in H.
    destruct H as [[_ ->] | [H | H]].
    + left. repeat split. left. reflexivity.
    + destruct H as (a & s & target & t & s' & v & v' & _ & Hc & Hm & Ht & -> & Hne & Hm' & ->).
      right. exists a, s, s', t. simpl. repeat split; auto.
    + destruct H as (a & s & target & v & _ & Hc & Hm & Ht & Hf & ->).
      left. simpl. repeat split. right. exists a, s. split; [exact Hm|reflexivity].
  - intros r a b n n' pre t post Hmr Hr Hc Hm Hcall Hts Hpre Ht Hb Hne Hm'.
    destruct (Hfirst pre t post Hts Hpre Ht) as [_ Hchain].
    rewrite Hchain, Hb in Hcall. subst m.
    destruct (step_fires_to r a b n n' Hr Hc Hm Hcall Hne Hm')
      as (r' & Hs & _ & Hc' & Hp' & Ht' & _ & Htr).
    exists r'. repeat split; assumption.
Qed.


End CounterCRun.

(** ** The engine on the concrete machine *)

Lemma resume_not_suspended_fails_witness :
  resume_state (machine Examples.counting_run) = NULL /\
  resume Examples.actions Examples.memory Examples.counting_run
    = Some (Failure InvalidState, Examples.counting_run).
Proof.
  split; [reflexivity|].
  apply (resume_not_suspended_fails Examples.actions Examples.memory
           Examples.counting_run).
  reflexivity.
Defined.

Lemma suspend_then_resume_restores_witness :
  exists r1 r2,
    suspend Examples.actions Examples.memory Examples.counting_run
      = Some (Success, r1) /\
    current_state (machine r1) = Some 4 /\
    resume Examples.actions Examples.memory r1 = Some (Success, r2) /\
    current_state (machine r2) = Some 2 /\
    trace r2 = [Call (fn CountUp OnSuspend) 2; Call (fn CountUp OnResume) 2].
Proof.
  destruct (suspend_then_resume_restores Examples.actions Examples.memory
              Examples.counting_run 2 4 (fsm_counterc_countup_init Examples.blank)
              CountUp eq_refl eq_refl eq_refl eq_refl eq_refl eq_refl)
    as (r1 & r2 & H1 & H2 & _ & _ & H3 & H4 & _ & _ & H5).
  exists r1, r2. repeat split; assumption.
Defined.

(** C3, as stated, fails twice.  [RESTART] moves the machine from CountUp
    back to [states[0]] and the state time stays 7.  And a machine that has
    stepped into its suspend state and stayed there for three ticks is left
    in that same state by suspend(), with the state time back at 0. *)
Lemma state_time_exceptions_counterexample :
  current_state Examples.counting_machine = Some 2 /\
  state_time Examples.counting_machine = 7%Z /\
  current_state (fst (RESTART Examples.counting_machine)) = Some 0 /\
  state_time (fst (RESTART Examples.counting_machine)) = 7%Z /\
  ~ (forall m : Machine_CounterC unit,
        current_state (fst (RESTART m)) <> current_state m ->
        state_time (fst (RESTART m)) = 0%Z) /\
  exists r r',
    steps Examples.all_true Examples.actions Examples.others Examples.memory
      6 Examples.fresh_run = Some r /\
    current_state (machine r) = Some 4 /\
    suspend_state (machine r) = Some 4 /\
    resume_state (machine r) = NULL /\
    state_time (machine r) = 3%Z /\
    suspend Examples.actions Examples.memory r = Some (Success, r') /\
    current_state (machine r') = current_state (machine r) /\
    state_time (machine r') = 0%Z.
Proof.
  split; [reflexivity|]. split; [reflexivity|]. split; [reflexivity|].
  split; [reflexivity|]. split.
  - intros H. specialize (H Examples.counting_machine).
    simpl in H. assert (E : 7%Z = 0%Z) by (apply H; discriminate).
    discriminate E.
  - exists (mkRun (mkMachine (Some 4) (Some 3) 3%Z (Some 4) NULL
                       [Some 0; Some 1; Some 2; Some 3; Some 4] tt)
                    [Call (fn Initial OnExit) 0; Call (fn CountUp OnEntry) 2;
                     Call (fn CountUp OnExit) 2; Call (fn Print OnEntry) 3;
                     Call (fn Print OnExit) 3; Call (fn SUSPENDED OnEntry) 4;
                     Call (fn SUSPENDED Internal) 4;
                     Call (fn SUSPENDED Internal) 4;
                     Call (fn SUSPENDED Internal) 4]).
    exists (mkRun (mkMachine (Some 4) (Some 3) 0%Z (Some 4) (Some 4)
                       [Some 0; Some 1; Some 2; Some 3; Some 4] tt)
                    [Call (fn Initial OnExit) 0; Call (fn CountUp OnEntry) 2;
                     Call (fn CountUp OnExit) 2; Call (fn Print OnEntry) 3;
                     Call (fn Print OnExit) 3; Call (fn SUSPENDED OnEntry) 4;
                     Call (fn SUSPENDED Internal) 4;
                     Call (fn SUSPENDED Internal) 4;
                     Call (fn SUSPENDED Internal) 4;
                     Call (fn SUSPENDED OnSuspend) 4]).
    split; [vm_compute; reflexivity|].
    split; [reflexivity|]. split; [reflexivity|].
    split; [reflexivity|]. split; [reflexivity|].
    split; [vm_compute; reflexivity|].
    split; reflexivity.
Qed.

Lemma state_time_reset_and_monotone_witness :
  exists r1 r2 r3 r4,
    step Examples.guards Examples.actions Examples.others Examples.memory
      Examples.fresh_run = Some r1 /\
    current_state (machine r1) <> current_state (machine Examples.fresh_run) /\
    state_time (machine r1) = 0%Z /\
    step Examples.guards Examples.actions Examples.others Examples.memory
      Examples.counting_run = Some r2 /\
    current_state (machine r2) = current_state (machine Examples.counting_run) /\
    (0 <= state_time (machine Examples.counting_run) < UINTPTR_MAX)%Z /\
    (state_time (machine Examples.counting_run) <= state_time (machine r2))%Z /\
    suspend Examples.actions Examples.memory Examples.counting_run
      = Some (Success, r3) /\
    r3 <> Examples.counting_run /\
    state_time (machine r3) = 0%Z /\
    current_state (machine r3) = Some 4 /\
    resume Examples.actions Examples.memory r3 = Some (Success, r4) /\
    r4 <> r3 /\
    state_time (machine r4) = 0%Z /\
    current_state (machine r4) = Some 2.
Proof.
  destruct (state_time_reset_and_monotone Examples.guards Examples.actions
              Examples.others Examples.memory Examples.fresh_run)
    as (_ & Hfresh & _).
  destruct (state_time_reset_and_monotone Examples.guards Examples.actions
              Examples.others Examples.memory Examples.counting_run)
    as (_ & Hcount & Hsus & _).
  do 4 eexists.
  split; [reflexivity|].
  assert (Hne : current_state
                  (machine
                     {| machine := mkMachine (Some 2) (Some 0) 0%Z (Some 4) NULL
                                     [Some 0; Some 1; Some 2; Some 3; Some 4] tt;
                        trace := [Call (fn Initial OnExit) 0;
                                  Call (fn CountUp OnEntry) 2] |})
                <> current_state (machine Examples.fresh_run))
    by (simpl; discriminate).
  split; [exact Hne|].
  split; [exact (proj1 (Hfresh _ eq_refl) Hne)|].
  split; [reflexivity|].
  split; [reflexivity|].
  assert (Hb : (0 <= state_time (machine Examples.counting_run) < UINTPTR_MAX)%Z)
    by (unfold UINTPTR_MAX, UINTPTR_WIDTH; simpl; lia).
  split; [exact Hb|].
  split; [exact (proj2 (proj2 (Hcount _ eq_refl) eq_refl) Hb)|].
  split; [reflexivity|].
  assert (Hne3 : {| machine := mkMachine (Some 4) (Some 0) 0%Z (Some 4) (Some 2)
                                 [Some 0; Some 1; Some 2; Some 3; Some 4] tt;
                    trace := [Call (fn CountUp OnSuspend) 2] |}
                 <> Examples.counting_run) by discriminate.
  split; [exact Hne3|].
  destruct (Hsus Success _ eq_refl) as [E | [Ht Hc]]; [contradiction|].
  split; [exact Ht|]. split; [exact Hc|].
  destruct (state_time_reset_and_monotone Examples.guards Examples.actions
              Examples.others Examples.memory
              {| machine := mkMachine (Some 4) (Some 0) 0%Z (Some 4) (Some 2)
                              [Some 0; Some 1; Some 2; Some 3; Some 4] tt;
                 trace := [Call (fn CountUp OnSuspend) 2] |})
    as (_ & _ & _ & Hres & _).
  split; [reflexivity|].
  assert (Hne4 : {| machine := mkMachine (Some 2) (Some 0) 0%Z (Some 4) NULL
                                 [Some 0; Some 1; Some 2; Some 3; Some 4] tt;
                    trace := [Call (fn CountUp OnSuspend) 2;
                              Call (fn CountUp OnResume) 2] |}
                 <> {| machine := mkMachine (Some 4) (Some 0) 0%Z (Some 4) (Some 2)
                                    [Some 0; Some 1; Some 2; Some 3; Some 4] tt;
                       trace := [Call (fn CountUp OnSuspend) 2] |})
    by discriminate.
  split; [exact Hne4|].
  destruct (Hres Success _ eq_refl) as [E | [Ht' Hc']]; [contradiction|].
  split; [exact Ht'|exact Hc'].
Defined.

Lemma check_transitions_first_match_witness :
  Scan.checkTransitions Examples.three_transitions
    (machine Examples.pseudo_run) = Some 3 /\
  Scan.check_transitions_chain states_at Examples.three_transitions
    (machine Examples.pseudo_run) = Some 3 /\
  exists r',
    step Examples.all_true Examples.actions Examples.scanning_others
      Examples.memory Examples.pseudo_run = Some r' /\
    current_state (machine r') = Some 3 /\
    previous_state (machine r') = Some 1 /\
    trace r' = [Call (fn InitialPseudoState OnExit) 1;
                Call (fn Print OnEntry) 3].
Proof.
  destruct (check_transitions_first_match Examples.all_true Examples.actions
              Examples.scanning_others Examples.memory
              Examples.three_transitions (machine Examples.pseudo_run))
    as (_ & _ & _ & Hf & _ & _ & _ & Hstep).
  assert (Hpre : forall u : Scan.Transition (Machine_CounterC unit),
             In u [Scan.mkTransition (fun _ => false) 1] ->
             Scan.guard u (machine Examples.pseudo_run) = false)
    by (intros u [<-|[]]; reflexivity).
  destruct (Hf [Scan.mkTransition (fun _ => false) 1]
               (Scan.mkTransition (fun _ => true) 3)
               [Scan.mkTransition (fun _ => true) 4]
               eq_refl Hpre eq_refl) as [Hscan Hchain].
  split; [exact Hscan|]. split; [exact Hchain|].
  assert (Hne : 3 <> 1) by discriminate.
  destruct (Hstep Examples.pseudo_run 1 3 InitialPseudoState Print
              [Scan.mkTransition (fun _ => false) 1]
              (Scan.mkTransition (fun _ => true) 3)
              [Scan.mkTransition (fun _ => true) 4]
              eq_refl eq_refl eq_refl eq_refl eq_refl eq_refl Hpre eq_refl
              eq_refl Hne eq_refl)
    as (r' & Hs & Hc & Hp & _ & Htr).
  exists r'. repeat split; assumption.
Defined.


(** * Further properties of the generated code *)

(** ** State tables: init and validate *)

(** X1.  A state's validator accepts the table its [init] installs, whatever
    the struct held before, and accepts no other table: a struct that passes
    is the installed table, entry for entry. *)
Theorem state_validate_accepts_exactly_installed_table :
  forall (V : Type) (m : Machine_CounterC V) (s s' : LLFSMState),
    fsm_counterc_countup_validate m (fsm_counterc_countup_init s) = true /\
    fsm_counterc_initial_validate m (fsm_counterc_initial_init s) = true /\
    (fsm_counterc_countup_validate m s = true ->
     s = fsm_counterc_countup_init s') /\
    (fsm_counterc_initial_validate m s = true ->
     s = fsm_counterc_initial_init s').
Proof.
  intros V m s s'. split; [reflexivity|]. split; [reflexivity|]. split.
  - intros H. apply fsm_counterc_countup_validate_iff in H. exact H.
  - intros H. apply fsm_counterc_initial_validate_iff in H. exact H.
Qed.

Lemma state_validate_accepts_exactly_installed_table_witness :
  fsm_counterc_countup_validate Examples.fresh_machine (registered CountUp)
    = true /\
  registered CountUp = fsm_counterc_countup_init Examples.corrupted_countup /\
  fsm_counterc_initial_validate Examples.fresh_machine (registered Initial)
    = true /\
  registered Initial = fsm_counterc_initial_init Examples.blank.
Proof.
  destruct (state_validate_accepts_exactly_installed_table unit
              Examples.fresh_machine (registered CountUp)
              Examples.corrupted_countup) as (_ & _ & Hc & _).
  destruct (state_validate_accepts_exactly_installed_table unit
              Examples.fresh_machine (registered Initial)
              Examples.blank) as (_ & _ & _ & Hi).
  split; [reflexivity|]. split; [exact (Hc eq_refl)|].
  split; [reflexivity|]. exact (Hi eq_refl).
Defined.

(** X2.  No struct passes the validators of two different states: CountUp's
    validator rejects whatever Initial's [init] installs, and the other way
    round, so a state struct set up as the wrong state is always detected. *)
Theorem state_validators_exclude_each_other :
  forall (V : Type) (m m' : Machine_CounterC V) (s : LLFSMState),
    fsm_counterc_countup_validate m s && fsm_counterc_initial_validate m' s
      = false /\
    fsm_counterc_countup_validate m (fsm_counterc_initial_init s) = false /\
    fsm_counterc_initial_validate m (fsm_counterc_countup_init s) = false.
Proof.
  intros V m m' s. split; [|split; reflexivity].
  destruct (fsm_counterc_countup_validate m s) eqn:Hc; [|reflexivity].
  destruct (fsm_counterc_initial_validate m' s) eqn:Hi; [|reflexivity].
  apply fsm_counterc_countup_validate_iff in Hc.
  apply fsm_counterc_initial_validate_iff in Hi.
  rewrite Hc in Hi. discriminate Hi.
Qed.

(** ** Machine initialisation and validation *)

(** X3.  [fsm_counterc_init] is a full reset: its result depends only on the
    state table and the variables, not on the five engine fields the machine
    held before, and initialising twice is the same as initialising once. *)
Theorem fsm_counterc_init_full_reset :
  forall (V : Type) (m m' : Machine_CounterC V),
    fsm_counterc_init (fsm_counterc_init m) = fsm_counterc_init m /\
    (states m = states m' -> variables m = variables m' ->
     fsm_counterc_init m = fsm_counterc_init m').
Proof.
  intros V m m'. split; [reflexivity|].
  destruct m, m'; unfold fsm_counterc_init, states_at; simpl.
  intros -> ->. reflexivity.
Qed.

Lemma fsm_counterc_init_full_reset_witness :
  states Examples.counting_machine = states Examples.stateless_machine /\
  Examples.counting_machine <> Examples.stateless_machine /\
  fsm_counterc_init Examples.counting_machine
    = fsm_counterc_init Examples.stateless_machine.
Proof.
  split; [reflexivity|]. split; [discriminate|].
  apply (proj2 (fsm_counterc_init_full_reset unit Examples.counting_machine
                  Examples.stateless_machine)); reflexivity.
Defined.

(** X4.  An initialised machine passes [fsm_counterc_validate] exactly when
    [states[0]] is non-null; in particular a machine whose initial state
    entry is null is rejected after initialisation. *)
Theorem fsm_counterc_validate_after_init :
  forall (V : Type) (m : Machine_CounterC V),
    fsm_counterc_validate (fsm_counterc_init m) = is_nonnull (states_at m 0) /\
    (fsm_counterc_validate (fsm_counterc_init m) = true <->
     states_at m 0 <> NULL) /\
    (states_at m 0 = NULL ->
     fsm_counterc_validate (fsm_counterc_init m) = false).
Proof.
  intros V m.
  assert (E : fsm_counterc_validate (fsm_counterc_init m)
              = is_nonnull (states_at m 0)).
  { unfold fsm_counterc_validate, fsm_counterc_init; simpl.
    apply andb_true_r. }
  split; [exact E|]. split.
  - rewrite E. apply is_nonnull_true.
  - intros H. rewrite E. apply is_nonnull_false. exact H.
Qed.

Lemma fsm_counterc_validate_after_init_witness :
  states_at Examples.raw_machine 0 <> NULL /\
  fsm_counterc_validate (fsm_counterc_init Examples.raw_machine) = true /\
  states_at (set_current_state (Some 1) (mkMachine NULL NULL 0%Z NULL NULL
                                           [NULL; Some 1] tt)) 0 = NULL /\
  fsm_counterc_validate
    (fsm_counterc_init
       (set_current_state (Some 1) (mkMachine NULL NULL 0%Z NULL NULL
                                      [NULL; Some 1] tt))) = false.
Proof.
  destruct (fsm_counterc_validate_after_init unit Examples.raw_machine)
    as (_ & Hiff & _).
  destruct (fsm_counterc_validate_after_init unit
              (set_current_state (Some 1)
                 (mkMachine NULL NULL 0%Z NULL NULL [NULL; Some 1] tt)))
    as (_ & _ & Hnull).
  assert (Hnn : states_at Examples.raw_machine 0 <> NULL)
    by (simpl; discriminate).
  split; [exact Hnn|]. split; [exact (proj2 Hiff Hnn)|].
  split; [reflexivity|]. exact (Hnull eq_refl).
Defined.

(** ** RESTART against init and validate *)

(** X5.  The value of [RESTART(m)] tells whether the machine is valid
    afterwards: it equals [fsm_counterc_validate] of the machine the macro
    leaves.  So the macro never revives a machine without a current state,
    and it invalidates a valid machine exactly when [states[0]] is null. *)
Theorem RESTART_value_is_validity :
  forall (V : Type) (m : Machine_CounterC V),
    fsm_counterc_validate (fst (RESTART m)) = snd (RESTART m) /\
    (fsm_counterc_validate m = false ->
     fsm_counterc_validate (fst (RESTART m)) = false) /\
    (fsm_counterc_validate m = true ->
     fsm_counterc_validate (fst (RESTART m)) = is_nonnull (states_at m 0)).
Proof.
  intros V m. unfold fsm_counterc_validate, RESTART.
  rewrite !andb_true_r. cbn [previous_state set_previous_state].
  destruct (is_nonnull (current_state m)) eqn:E; cbn [fst snd].
  - split; [reflexivity|]. split; [discriminate|]. intros _. reflexivity.
  - cbn [current_state set_previous_state].
    split; [exact E|]. split; [intros _; exact E|discriminate].
Qed.

Lemma RESTART_value_is_validity_witness :
  fsm_counterc_validate Examples.stateless_machine = false /\
  fsm_counterc_validate (fst (RESTART Examples.stateless_machine)) = false /\
  fsm_counterc_validate Examples.counting_machine = true /\
  fsm_counterc_validate (fst (RESTART Examples.counting_machine)) = true.
Proof.
  destruct (RESTART_value_is_validity unit Examples.stateless_machine)
    as (_ & Hf & _).
  destruct (RESTART_value_is_validity unit Examples.counting_machine)
    as (_ & _ & Ht).
  split; [reflexivity|]. split; [exact (Hf eq_refl)|].
  split; [reflexivity|]. exact (Ht eq_refl).
Defined.

(** X6.  [RESTART] overwrites the previous state whatever it was, a second
    [RESTART] in a row does not move the machine again, and after it the
    previous state equals the current state, so the state that was left by
    the first one is no longer recorded. *)
Theorem RESTART_twice :
  forall (V : Type) (m : Machine_CounterC V) (p : ptr),
    RESTART (set_previous_state p m) = RESTART m /\
    current_state (fst (RESTART (fst (RESTART m))))
      = current_state (fst (RESTART m)) /\
    previous_state (fst (RESTART (fst (RESTART m))))
      = current_state (fst (RESTART (fst (RESTART m)))) /\
    snd (RESTART (fst (RESTART m))) = snd (RESTART m).
Proof.
  intros V m p. destruct m as [c pr t su re sts v].
  unfold RESTART, states_at; simpl.
  destruct c as [a|]; simpl.
  - destruct (nth 0 sts NULL) as [b|] eqn:E; simpl; rewrite ?E; simpl;
      repeat split.
  - repeat split.
Qed.

(** X7.  [fsm_counterc_init] absorbs a preceding [RESTART], and a [RESTART]
    right after [fsm_counterc_init] keeps the machine at [states[0]] with
    state time 0 and only records [states[0]] as the previous state. *)
Theorem RESTART_and_init_compose :
  forall (V : Type) (m : Machine_CounterC V),
    fsm_counterc_init (fst (RESTART m)) = fsm_counterc_init m /\
    fst (RESTART (fsm_counterc_init m))
      = set_previous_state (states_at m 0) (fsm_counterc_init m).
Proof.
  intros V m. unfold RESTART, fsm_counterc_init, states_at; simpl. split.
  - destruct (current_state m); reflexivity.
  - destruct (nth 0 (states m) NULL); reflexivity.
Qed.

(** ** The transition checks *)

(** X8.  A generated transition check returns null exactly when its guard is
    false or the target entry of the state table is null, so a firing
    transition to a null entry cannot be told from no transition; a non-null
    result is the target entry ([states[3]] for CountUp, [states[2]] for
    Initial) and means the guard held. *)
Theorem check_transitions_null_iff :
  forall (V : Type) (Transition_0 : StateName -> Machine_CounterC V -> bool)
         (m : Machine_CounterC V),
    (fsm_counterc_countup_check_transitions Transition_0 m = NULL <->
     Transition_0 CountUp m = false \/ states_at m 3 = NULL) /\
    (fsm_counterc_initial_check_transitions Transition_0 m = NULL <->
     Transition_0 Initial m = false \/ states_at m 2 = NULL) /\
    (fsm_counterc_countup_check_transitions Transition_0 m <> NULL ->
     Transition_0 CountUp m = true /\
     fsm_counterc_countup_check_transitions Transition_0 m = states_at m 3) /\
    (fsm_counterc_initial_check_transitions Transition_0 m <> NULL ->
     Transition_0 Initial m = true /\
     fsm_counterc_initial_check_transitions Transition_0 m = states_at m 2).
Proof.
  intros V T0 m.
  unfold fsm_counterc_countup_check_transitions,
         fsm_counterc_initial_check_transitions.
  destruct (T0 CountUp m), (T0 Initial m); repeat split;
    try tauto; try (intros [H|H]; congruence); try (intros; congruence);
    try (intros H; right; exact H); try (intros; left; reflexivity).
Qed.

Lemma check_transitions_null_iff_witness :
  fsm_counterc_countup_check_transitions Examples.all_true
    Examples.fresh_machine <> NULL /\
  fsm_counterc_countup_check_transitions Examples.all_true
    Examples.fresh_machine = Some 3 /\
  fsm_counterc_initial_check_transitions Examples.all_true
    Examples.fresh_machine = Some 2 /\
  fsm_counterc_countup_check_transitions Examples.guards
    Examples.fresh_machine = NULL.
Proof.
  destruct (check_transitions_null_iff unit Examples.all_true
              Examples.fresh_machine) as (_ & _ & Hc & Hi).
  destruct (check_transitions_null_iff unit Examples.guards
              Examples.fresh_machine) as (Hn & _).
  assert (H3 : fsm_counterc_countup_check_transitions Examples.all_true
                 Examples.fresh_machine <> NULL) by (simpl; discriminate).
  assert (H2 : fsm_counterc_initial_check_transitions Examples.all_true
                 Examples.fresh_machine <> NULL) by (simpl; discriminate).
  split; [exact H3|].
  split; [exact (proj2 (Hc H3))|].
  split; [exact (proj2 (Hi H2))|].
  apply (proj2 Hn). left. reflexivity.
Defined.

(** X9.  On a machine whose state table has the declared
    [MACHINE_COUNTERC_NUMBER_OF_STATES] entries, every [states[i]] the
    generated code reads is inside the table: the current and suspend state
    set by [fsm_counterc_init], the current state set by [RESTART] and the
    targets returned by the two transition checks are entries 0, 4, 0, 3 and
    2 of the table. *)
Theorem generated_reads_stay_in_table :
  forall (V : Type) (Transition_0 : StateName -> Machine_CounterC V -> bool)
         (m : Machine_CounterC V),
    length (states m) = MACHINE_COUNTERC_NUMBER_OF_STATES ->
    nth_error (states m) 0 = Some (current_state (fsm_counterc_init m)) /\
    nth_error (states m) 4 = Some (suspend_state (fsm_counterc_init m)) /\
    (current_state m <> NULL ->
     nth_error (states m) 0 = Some (current_state (fst (RESTART m)))) /\
    (Transition_0 CountUp m = true ->
     nth_error (states m) 3
       = Some (fsm_counterc_countup_check_transitions Transition_0 m)) /\
    (Transition_0 Initial m = true ->
     nth_error (states m) 2
       = Some (fsm_counterc_initial_check_transitions Transition_0 m)).
Proof.
  intros V T0 m Hlen.
  assert (Hnth : forall i, (i < 5)%nat ->
                   nth_error (states m) i = Some (states_at m i)).
  { intros i Hi. unfold states_at. apply nth_error_nth'.
    rewrite Hlen. exact Hi. }
  split; [apply (Hnth 0%nat); lia|].
  split; [apply (Hnth 4%nat); lia|].
  split; [|split].
  - intros Hc. unfold RESTART; simpl.
    apply is_nonnull_true in Hc. rewrite Hc. simpl. apply (Hnth 0%nat); lia.
  - intros Hg. unfold fsm_counterc_countup_check_transitions. rewrite Hg.
    apply (Hnth 3%nat); lia.
  - intros Hg. unfold fsm_counterc_initial_check_transitions. rewrite Hg.
    apply (Hnth 2%nat); lia.
Qed.

Lemma generated_reads_stay_in_table_witness :
  length (states Examples.counting_machine)
    = MACHINE_COUNTERC_NUMBER_OF_STATES /\
  nth_error (states Examples.counting_machine) 0
    = Some (current_state (fst (RESTART Examples.counting_machine))) /\
  nth_error (states Examples.counting_machine) 3
    = Some (fsm_counterc_countup_check_transitions Examples.all_true
              Examples.counting_machine).
Proof.
  destruct (generated_reads_stay_in_table unit Examples.all_true
              Examples.counting_machine eq_refl) as (_ & _ & Hr & Hc & _).
  split; [reflexivity|].
  split; [apply Hr; simpl; discriminate|].
  apply Hc. reflexivity.
Defined.

(** ** GET_TIME *)

(** X10.  [GET_TIME()] always is a [uintptr_t].  For a state time in range
    it is 0 exactly at the largest [uintptr_t], the one point where the sum
    wraps, and otherwise at least 1; and it tells state times apart: equal
    readings come from equal state times. *)
Theorem GET_TIME_range_and_injective :
  forall (V : Type) (m m' : Machine_CounterC V),
    (0 <= GET_TIME m <= UINTPTR_MAX)%Z /\
    ((0 <= state_time m <= UINTPTR_MAX)%Z ->
     (GET_TIME m = 0%Z <-> state_time m = UINTPTR_MAX) /\
     (state_time m < UINTPTR_MAX -> 1 <= GET_TIME m)%Z) /\
    ((0 <= state_time m <= UINTPTR_MAX)%Z ->
     (0 <= state_time m' <= UINTPTR_MAX)%Z ->
     GET_TIME m = GET_TIME m' -> state_time m = state_time m').
Proof.
  intros V m m'.
  assert (Hpos : (0 < 2 ^ UINTPTR_WIDTH)%Z) by reflexivity.
  assert (Hval : forall t, (0 <= t <= UINTPTR_MAX)%Z ->
            (t = UINTPTR_MAX /\ uintptr_wrap (t + 1) = 0%Z) \/
            (t < UINTPTR_MAX /\ uintptr_wrap (t + 1) = t + 1)%Z).
  { intros t Ht. destruct (Z.eq_dec t UINTPTR_MAX) as [->|Hne].
    - left. split; reflexivity.
    - right. split; [lia|]. apply uintptr_wrap_small. lia. }
  unfold GET_TIME. split; [|split].
  - unfold uintptr_wrap, UINTPTR_MAX.
    pose proof (Z.mod_pos_bound (state_time m + 1) _ Hpos). lia.
  - intros Hm. destruct (Hval _ Hm) as [[E W]|[L W]]; rewrite W; split;
      try (split; intros; lia); intros; lia.
  - intros Hm Hm'.
    destruct (Hval _ Hm) as [[E W]|[L W]], (Hval _ Hm') as [[E' W']|[L' W']];
      rewrite W, W'; intros; lia.
Qed.

Lemma GET_TIME_range_and_injective_witness :
  (0 <= state_time Examples.saturated_machine <= UINTPTR_MAX)%Z /\
  GET_TIME Examples.saturated_machine = 0%Z /\
  (1 <= GET_TIME Examples.counting_machine)%Z /\
  state_time Examples.counting_machine = state_time Examples.stateless_machine.
Proof.
  assert (Hs : (0 <= state_time Examples.saturated_machine <= UINTPTR_MAX)%Z)
    by (split; apply Z.leb_le; reflexivity).
  assert (Hc : (0 <= state_time Examples.counting_machine <= UINTPTR_MAX)%Z)
    by (unfold UINTPTR_MAX, UINTPTR_WIDTH; simpl; lia).
  assert (Hl : (0 <= state_time Examples.stateless_machine <= UINTPTR_MAX)%Z)
    by (unfold UINTPTR_MAX, UINTPTR_WIDTH; simpl; lia).
  destruct (GET_TIME_range_and_injective unit Examples.saturated_machine
              Examples.saturated_machine) as (_ & Hsat & _).
  destruct (GET_TIME_range_and_injective unit Examples.counting_machine
              Examples.stateless_machine) as (_ & Hcnt & Hinj).
  split; [exact Hs|].
  split; [exact (proj2 (proj1 (Hsat Hs)) eq_refl)|].
  split.
  - apply (proj2 (Hcnt Hc)). unfold UINTPTR_MAX, UINTPTR_WIDTH; simpl; lia.
  - apply (Hinj Hc Hl). reflexivity.
Defined.
